(** * next_app_1: configuration derivation, client state container and
      server-of-record preferences store

    A shallow embedding of the application logic of
    - [app/page.js] (the server-side derivation in [GlobalConfigurationPage]),
    - [app/GlobalConfigDashboard.jsx] (the [UserProvider] state updaters, the
      [useUserContext] hook and its consumers), and
    - the server-actions page (the [db] object, [getServerPreferences],
      [updateUserCurrency] and [toggleFeatureFlag]).

    Markup and styling are not modelled.  JavaScript values, property lookup on
    object literals, exceptions and the mutable [db] are modelled explicitly. *)

From stdpp Require Import base option list strings gmap.
From Stdlib Require Import ZArith Lia Ascii.

Local Open Scope Z_scope.
Local Open Scope string_scope.

(** ** The JavaScript fragment the sources use *)

Module Js.

(** The values that flow through the modelled code.  [VFile] is the
    non-string kind of form entry; [VFunction] and [VObjectPrototype] are the
    built-in objects reachable through the prototype of an object literal. *)
Inductive value : Type :=
| VUndefined
| VNull
| VBoolean (b : bool)
| VString (s : string)
| VFile (name : string)
| VFunction (name : string)
| VObjectPrototype.

(** [Boolean(v)], which is also the test performed by [!v] and [if (v)]. *)
Definition ToBoolean (v : value) : bool :=
  match v with
  | VUndefined | VNull => false
  | VBoolean b => b
  | VString s => negb (String.eqb s "")
  | VFile _ | VFunction _ | VObjectPrototype => true
  end.

(** [!v] *)
Definition not (v : value) : bool := negb (ToBoolean v).

(** [a === b] on two strings. *)
Definition strict_eq_string (a b : string) : bool := String.eqb a b.

(** The key a value denotes when used in [obj[v]]. *)
Definition ToPropertyKey (v : value) : string :=
  match v with
  | VUndefined => "undefined"
  | VNull => "null"
  | VBoolean true => "true"
  | VBoolean false => "false"
  | VString s => s
  | VFile _ => "[object File]"
  | VFunction name => "function " ++ name ++ "() { [native code] }"
  | VObjectPrototype => "[object Object]"
  end.

(** Thrown values: [new Error(message)] and the engine's [TypeError]. *)
Inductive exn : Type :=
| Error (message : string)
| TypeError (message : string).

(** The outcome of evaluating code that may throw. *)
Inductive completion (A : Type) : Type :=
| Normal (a : A)
| Throw (e : exn).
Arguments Normal {A} a.
Arguments Throw {A} e.

Definition completion_bind {A B} (f : A -> completion B)
    (c : completion A) : completion B :=
  match c with
  | Normal a => f a
  | Throw e => Throw e
  end.

#[global] Instance completion_ret : MRet completion := fun A a => Normal a.
#[global] Instance completion_mbind : MBind completion :=
  fun A B f c => completion_bind f c.

(** [arr.findIndex(p)]: the index of the first element satisfying [p],
    [-1] when there is none. *)
Fixpoint findIndex_from {A} (p : A -> bool) (arr : list A) (i : Z) : Z :=
  match arr with
  | [] => -1
  | x :: rest => if p x then i else findIndex_from p rest (i + 1)
  end.

Definition findIndex {A} (p : A -> bool) (arr : list A) : Z :=
  findIndex_from p arr 0.

(** [a % b] on integers: the remainder takes the sign of the dividend. *)
Definition rem (a b : Z) : Z := Z.rem a b.

(** [arr[i]] for an integer [i]; [None] stands for [undefined]. *)
Definition index {A} (arr : list A) (i : Z) : option A :=
  if Z.ltb i 0 then None else arr !! Z.to_nat i.

(** [arr.length] *)
Definition length {A} (arr : list A) : Z := Z.of_nat (List.length arr).

(** *** Property lookup and assignment on an object literal

    An object literal inherits from [Object.prototype].  Its own properties
    are kept in a finite map; the inherited ones are the built-in methods
    (writable data properties) and the [__proto__] accessor. *)
Definition Object_prototype_methods : list string :=
  [ "constructor"; "hasOwnProperty"; "isPrototypeOf"; "propertyIsEnumerable";
    "toLocaleString"; "toString"; "valueOf";
    "__defineGetter__"; "__defineSetter__";
    "__lookupGetter__"; "__lookupSetter__" ].

Definition is_prototype_method (k : string) : bool :=
  existsb (String.eqb k) Object_prototype_methods.

Definition is_proto_accessor (k : string) : bool := String.eqb k "__proto__".

(** The names every object literal answers to without owning them. *)
Definition inherited (k : string) : bool :=
  is_prototype_method k || is_proto_accessor k.

(** [obj[k]] where every own property of [obj] holds a boolean. *)
Definition Get (own : gmap string bool) (k : string) : value :=
  match own !! k with
  | Some b => VBoolean b
  | None =>
      if is_prototype_method k then VFunction k
      else if is_proto_accessor k then VObjectPrototype
      else VUndefined
  end.

(** [obj[k] = b] for a boolean [b].  An own property is overwritten; an
    inherited method is shadowed by a new own property; the inherited
    [__proto__] setter discards a value that is neither an object nor
    [null]; any other key becomes a new own property. *)
Definition Put (own : gmap string bool) (k : string) (b : bool)
    : gmap string bool :=
  match own !! k with
  | Some _ => <[k := b]> own
  | None => if is_proto_accessor k then own else <[k := b]> own
  end.

(** *** Further operators *)

(** [a || b]: the left operand when it is truthy, the right one otherwise. *)
Definition or_else (a b : value) : value := if ToBoolean a then a else b.

(** [v === s] for a string literal [s]: only the same string is equal. *)
Definition strict_eq_value_string (v : value) (s : string) : bool :=
  match v with
  | VString t => String.eqb t s
  | _ => false
  end.

(** [a !== b] on two strings. *)
Definition strict_neq_string (a b : string) : bool := negb (String.eqb a b).

(** [env.NAME] on [process.env]: the variable's text, [undefined] if unset. *)
Definition env_get (env : gmap string string) (name : string) : value :=
  match env !! name with
  | Some text => VString text
  | None => VUndefined
  end.

(** [s.split('T')[0]]: the text before the first "T", all of it if none. *)
Fixpoint before_first_T (s : string) : string :=
  match s with
  | EmptyString => EmptyString
  | String c rest =>
      if Ascii.eqb c "T"%char then EmptyString else String c (before_first_T rest)
  end.

(** *** [JSON.stringify] on an object of booleans and strings

    Strings are quoted with the double quote, the backslash and the control
    characters escaped; properties appear in creation order; a property
    whose value is [undefined] or a function is left out. *)
Definition hex_digit (n : nat) : ascii :=
  match String.get n "0123456789abcdef" with
  | Some c => c
  | None => "0"%char
  end.

Definition JSON_escape_char (c : ascii) : string :=
  let n := nat_of_ascii c in
  if Nat.eqb n 8 then "\b"
  else if Nat.eqb n 9 then "\t"
  else if Nat.eqb n 10 then "\n"
  else if Nat.eqb n 12 then "\f"
  else if Nat.eqb n 13 then "\r"
  else if Nat.eqb n 34 then String "\"%char (String c EmptyString)
  else if Nat.eqb n 92 then "\\"
  else if Nat.ltb n 32 then
    "\u00" ++ String (hex_digit (Nat.div n 16))
                (String (hex_digit (Nat.modulo n 16)) EmptyString)
  else String c EmptyString.

Fixpoint JSON_escape (s : string) : string :=
  match s with
  | EmptyString => EmptyString
  | String c rest => JSON_escape_char c ++ JSON_escape rest
  end.

Definition JSON_quote (s : string) : string :=
  String "034"%char (JSON_escape s ++ String "034"%char EmptyString).

(** The text of a property value; [None] when the property is left out. *)
Definition JSON_stringify_value (v : value) : option string :=
  match v with
  | VUndefined | VFunction _ => None
  | VNull => Some "null"
  | VBoolean true => Some "true"
  | VBoolean false => Some "false"
  | VString s => Some (JSON_quote s)
  | VFile _ | VObjectPrototype => Some "{}"
  end.

Definition JSON_stringify_property (kv : string * value) : option string :=
  match JSON_stringify_value (snd kv) with
  | Some text => Some (JSON_quote (fst kv) ++ ":" ++ text)
  | None => None
  end.

Definition JSON_stringify (object : list (string * value)) : string :=
  "{" ++ String.concat "," (omap JSON_stringify_property object) ++ "}".

End Js.

Import Js.

(** ** React: a value placed between tags *)

Module React.

(** [<span>{v}</span>]: a string is put in the document as text; booleans,
    [null] and [undefined] put nothing; a function puts nothing (with a
    warning); any other object makes the render throw. *)
Definition render_child (v : value) : completion string :=
  match v with
  | VString s => Normal s
  | VUndefined | VNull | VBoolean _ => Normal ""
  | VFunction _ => Normal ""
  | VFile _ | VObjectPrototype =>
      Throw (Error "Objects are not valid as a React child")
  end.

End React.

Import React.

(** ** app/page.js: the server-side derivation *)

Module Page.

Record DerivedConfig : Type := {
  isLoggedIn : bool;
  currencyCode : string;
  userLocation : string
}.

(** The "server-side business logic" block of [GlobalConfigurationPage],
    with the two simulated request values as parameters. *)
Definition deriveConfig (AUTH_TOKEN : value) (GEO_COUNTRY_CODE : string)
    : DerivedConfig :=
  let currencyCode :=
    if strict_eq_string GEO_COUNTRY_CODE "CA" then "CAD" else "USD" in
  let isLoggedIn := ToBoolean AUTH_TOKEN in
  let userLocation := GEO_COUNTRY_CODE in
  {| isLoggedIn := isLoggedIn;
     currencyCode := currencyCode;
     userLocation := userLocation |}.

(** The values the page is rendered with. *)
Definition AUTH_TOKEN : value := VBoolean true.
Definition GEO_COUNTRY_CODE : string := "CA".

Definition GlobalConfigurationPage : DerivedConfig :=
  deriveConfig AUTH_TOKEN GEO_COUNTRY_CODE.

(** The reference definition of section 4.1 of the specification, written
    from its three bullet points. *)
Definition deriveConfig_reference (authToken : bool) (geoCountryCode : string)
    : DerivedConfig :=
  {| isLoggedIn := authToken;
     currencyCode := if decide (geoCountryCode = "CA") then "CAD" else "USD";
     userLocation := geoCountryCode |}.

End Page.

(** ** app/GlobalConfigDashboard.jsx: the client state container *)

Module Dashboard.

(** The object held by [useState] in [UserProvider]. *)
Record state : Type := {
  isLoggedIn : bool;
  userLocation : string;
  currencyCode : string
}.

(** [UserProvider({ isLoggedIn, currencyCode, userLocation, children })]:
    the initial state. *)
Definition UserProvider (isLoggedIn : bool) (currencyCode userLocation : string)
    : state :=
  {| isLoggedIn := isLoggedIn;
     userLocation := userLocation;
     currencyCode := currencyCode |}.

Record region : Type := { location : string; currency : string }.

Definition locations : list region :=
  [ {| location := "US"; currency := "USD" |};
    {| location := "CA"; currency := "CAD" |};
    {| location := "EU"; currency := "EUR" |};
    {| location := "UK"; currency := "GBP" |};
    {| location := "JP"; currency := "JPY" |} ].

(** The updater passed to [setState] by [toggleLocation].  Reading
    [next.location] throws when [next] is [undefined]. *)
Definition toggleLocation (prevState : state) : completion state :=
  let currentIndex :=
    findIndex (fun l => strict_eq_string (location l) (userLocation prevState))
              locations in
  let nextIndex := rem (currentIndex + 1) (Js.length locations) in
  match index locations nextIndex with
  | Some next =>
      Normal {| isLoggedIn := isLoggedIn prevState;
                userLocation := location next;
                currencyCode := currency next |}
  | None =>
      Throw (TypeError "Cannot read properties of undefined (reading 'location')")
  end.

(** The updater passed to [setState] by [toggleLoginStatus]. *)
Definition toggleLoginStatus (prevState : state) : state :=
  {| isLoggedIn := negb (isLoggedIn prevState);
     userLocation := userLocation prevState;
     currencyCode := currencyCode prevState |}.

(** [n] clicks on the "Cycle Location/Currency" button. *)
Fixpoint toggleLocation_times (n : nat) (s : state) : completion state :=
  match n with
  | O => Normal s
  | S n' => s' ← toggleLocation s; toggleLocation_times n' s'
  end.

(** *** The context

    A component's position in the tree is given by the values of the
    [UserContext.Provider]s above it, nearest first.  [createContext(null)]
    makes [null] (here [None]) the value read when there is none. *)
Definition scope : Type := list state.

Definition UserContext_default : option state := None.

Definition useContext (ancestors : scope) : option state :=
  match ancestors with
  | nearest :: _ => Some nearest
  | [] => UserContext_default
  end.

Definition useUserContext (ancestors : scope) : completion state :=
  match useContext ancestors with
  | Some context => Normal context
  | None => Throw (Error "useUserContext must be used within a UserProvider")
  end.

(** *** Consumers: the data each component renders

    Each consumer starts by calling [useUserContext] and has no handler
    around the call.  The check and cross marks of the login label and the
    feature descriptions are left out. *)

Record currency_toggle_view : Type := {
  shown_location : string;
  shown_currency : string;
  shown_login : string
}.

Definition CurrencyToggle (ancestors : scope) : completion currency_toggle_view :=
  ctx ← useUserContext ancestors;
  mret {| shown_location := userLocation ctx;
          shown_currency := currencyCode ctx;
          shown_login := if isLoggedIn ctx then "Logged In" else "Logged Out" |}.

Record feature : Type := { name : string; enabled : bool }.

(** [list.includes(x)] on strings. *)
Definition includes (l : list string) (x : string) : bool :=
  existsb (strict_eq_string x) l.

Definition FeatureFlags (ancestors : scope) : completion (list feature) :=
  ctx ← useUserContext ancestors;
  mret [ {| name := "Premium Dashboard"; enabled := isLoggedIn ctx |};
         {| name := "Multi-Currency Support";
            enabled := includes ["EUR"; "GBP"; "JPY"] (currencyCode ctx) |};
         {| name := "Regional Promotions";
            enabled := negb (strict_eq_string (currencyCode ctx) "USD") |};
         {| name := "Guest Checkout"; enabled := negb (isLoggedIn ctx) |} ].

Definition DataFlowVisualization (ancestors : scope) : completion state :=
  currentClientState ← useUserContext ancestors;
  mret currentClientState.

(** The ordered cycle as the specification lists it: each pair
    (location, currency) with the pair that follows it. *)
Definition cycle_successor : list ((string * string) * (string * string)) :=
  [ (("US", "USD"), ("CA", "CAD"));
    (("CA", "CAD"), ("EU", "EUR"));
    (("EU", "EUR"), ("UK", "GBP"));
    (("UK", "GBP"), ("JP", "JPY"));
    (("JP", "JPY"), ("US", "USD")) ].

Definition pair_of (s : state) : string * string :=
  (userLocation s, currencyCode s).

(** *** [DataFlowVisualization]: the comparison it displays

    The component compares the text of the [serverInitialData] prop with the
    text of the three state fields and shows one of two messages (the warning
    and check marks are left out). *)
Definition client_snapshot (s : state) : list (string * value) :=
  [ ("isLoggedIn", VBoolean (isLoggedIn s));
    ("userLocation", VString (userLocation s));
    ("currencyCode", VString (currencyCode s)) ].

Definition DataFlowVisualization_status
    (serverInitialData : list (string * value)) (ancestors : scope)
    : completion string :=
  currentClientState ← useUserContext ancestors;
  mret (if strict_neq_string (JSON_stringify serverInitialData)
                             (JSON_stringify (client_snapshot currentClientState))
        then "State has been modified client-side!"
        else "State matches server initial values").

(** *** Clicks

    The two buttons of [CurrencyToggle]; each click runs its updater on the
    provider's state. *)
Inductive click : Type :=
| ClickCycleLocation
| ClickToggleLogin.

Definition on_click (c : click) (s : state) : completion state :=
  match c with
  | ClickCycleLocation => toggleLocation s
  | ClickToggleLogin => Normal (toggleLoginStatus s)
  end.

Fixpoint on_clicks (cs : list click) (s : state) : completion state :=
  match cs with
  | [] => Normal s
  | c :: rest => s' ← on_click c s; on_clicks rest s'
  end.

(** [toggleLoginStatus] applied [n] times. *)
Fixpoint toggleLoginStatus_times (n : nat) (s : state) : state :=
  match n with
  | O => s
  | S n' => toggleLoginStatus_times n' (toggleLoginStatus s)
  end.

Definition is_cycle_click (c : click) : bool :=
  match c with ClickCycleLocation => true | ClickToggleLogin => false end.

Definition is_login_click (c : click) : bool :=
  match c with ClickCycleLocation => false | ClickToggleLogin => true end.

End Dashboard.


(** ** The server-actions page: the simulated database and its actions *)

Module ServerActions.

Record USER_PREFERENCES_t : Type := {
  currency : value;
  theme : string
}.

(** The global [db] object.  [FEATURE_FLAGS] is an object literal used as a
    map from flag names to booleans: the finite map holds its own properties. *)
Record db_t : Type := {
  USER_PREFERENCES : USER_PREFERENCES_t;
  FEATURE_FLAGS : gmap string bool
}.

(** The value of [db] when the module is loaded. *)
Definition db_initial : db_t :=
  {| USER_PREFERENCES := {| currency := VString "USD"; theme := "light" |};
     FEATURE_FLAGS := {[ "currencyToggleEnabled" := true ]} |}.

(** What the server process holds: the [db] object, the time spent in
    timers (milliseconds) and the routes handed to [revalidatePath], most
    recent first.  [console.log] only reads and is left out. *)
Record world : Type := {
  db : db_t;
  elapsed : Z;
  revalidated : list string
}.

Definition world_initial : world :=
  {| db := db_initial; elapsed := 0; revalidated := [] |}.

(** An [async function] run to completion on the server: it transforms the
    world and either returns or rejects. *)
Definition action (A : Type) : Type := world -> completion (A * world).

#[global] Instance action_ret : MRet action := fun A a w => Normal (a, w).
#[global] Instance action_mbind : MBind action :=
  fun A B f m w =>
    match m w with
    | Normal (a, w') => f a w'
    | Throw e => Throw e
    end.

(** [await new Promise(resolve => setTimeout(resolve, ms))] *)
Definition sleep (ms : Z) : action unit :=
  fun w => Normal (tt, {| db := db w;
                          elapsed := elapsed w + ms;
                          revalidated := revalidated w |}).

(** [revalidatePath(path)] from [next/cache]: the route is marked stale. *)
Definition revalidatePath (path : string) : action unit :=
  fun w => Normal (tt, {| db := db w;
                          elapsed := elapsed w;
                          revalidated := path :: revalidated w |}).

Definition read_db : action db_t := fun w => Normal (db w, w).

Definition write_db (d : db_t) : action unit :=
  fun w => Normal (tt, {| db := d;
                          elapsed := elapsed w;
                          revalidated := revalidated w |}).

(** A submitted form: named entries in submission order, each a string or a
    file. *)
Definition FormData : Type := list (string * value).

(** [formData.get(name)]: the first entry of that name, [null] if none. *)
Fixpoint FormData_get (formData : FormData) (name : string) : value :=
  match formData with
  | [] => VNull
  | (n, v) :: rest => if String.eqb n name then v else FormData_get rest name
  end.

(** The record [getServerPreferences] resolves to. *)
Record preferences : Type := {
  p_currency : value;
  p_theme : string;
  p_currencyToggleEnabled : value
}.

Definition getServerPreferences : action preferences :=
  sleep 100;;
  d ← read_db;
  mret {| p_currency := currency (USER_PREFERENCES d);
          p_theme := theme (USER_PREFERENCES d);
          p_currencyToggleEnabled := Get (FEATURE_FLAGS d) "currencyToggleEnabled" |}.

Definition updateUserCurrency (formData : FormData) : action unit :=
  let newCurrency := FormData_get formData "currency" in
  sleep 500;;
  d ← read_db;
  write_db {| USER_PREFERENCES := {| currency := newCurrency;
                                     theme := theme (USER_PREFERENCES d) |};
              FEATURE_FLAGS := FEATURE_FLAGS d |};;
  revalidatePath "/server-actions-demo".

Definition toggleFeatureFlag (formData : FormData) : action unit :=
  let flagName := FormData_get formData "flagName" in
  sleep 300;;
  d ← read_db;
  let key := ToPropertyKey flagName in
  write_db {| USER_PREFERENCES := USER_PREFERENCES d;
              FEATURE_FLAGS :=
                Put (FEATURE_FLAGS d) key (Js.not (Get (FEATURE_FLAGS d) key)) |};;
  revalidatePath "/server-actions-demo".

(** What [ServerActionsDemoPage] hands to [PreferencesManager], together
    with the fields its status card reads from [db] directly. *)
Record page_view : Type := {
  props : preferences;
  status_currency : value;
  status_theme : string;
  status_flag : string
}.

Definition ServerActionsDemoPage : action page_view :=
  preferences ← getServerPreferences;
  d ← read_db;
  mret {| props := preferences;
          status_currency := currency (USER_PREFERENCES d);
          status_theme := theme (USER_PREFERENCES d);
          status_flag :=
            if ToBoolean (Get (FEATURE_FLAGS d) "currencyToggleEnabled")
            then "ENABLED" else "DISABLED" |}.

(** The form [PreferencesManager] submits for a chosen currency, and the one
    behind its feature button. *)
Definition currency_form (c : string) : FormData := [("currency", VString c)].
Definition flag_form (f : string) : FormData := [("flagName", VString f)].

(** The flag as a reader sees it: [db.FEATURE_FLAGS[f]]. *)
Definition flag (w : world) (f : string) : value := Get (FEATURE_FLAGS (db w)) f.

(** The world an action leaves behind, when it returns. *)
Definition after {A} (m : action A) (w : world) : option world :=
  match m w with
  | Normal (_, w') => Some w'
  | Throw _ => None
  end.

End ServerActions.

(** ** The client components of the server-actions page *)

Module ClientComponents.

Record submit_button : Type := { text : string; disabled : bool }.

(** [SubmitButton({ label = 'Save', loadingLabel = 'Saving...' })], with
    [pending] as [useFormStatus] reports it; [None] is an omitted prop. *)
Definition SubmitButton (label loadingLabel : option string) (pending : bool)
    : submit_button :=
  let label := default "Save" label in
  let loadingLabel := default "Saving..." loadingLabel in
  {| text := if pending then loadingLabel else label;
     disabled := pending |}.

Record radio : Type := { radio_value : string; defaultChecked : bool }.

(** The radio buttons of the currency form, in document order. *)
Definition currency_radios (currency : value) : list radio :=
  [ {| radio_value := "USD"; defaultChecked := strict_eq_value_string currency "USD" |};
    {| radio_value := "EUR"; defaultChecked := strict_eq_value_string currency "EUR" |};
    {| radio_value := "GBP"; defaultChecked := strict_eq_value_string currency "GBP" |};
    {| radio_value := "JPY"; defaultChecked := strict_eq_value_string currency "JPY" |};
    {| radio_value := "CAD"; defaultChecked := strict_eq_value_string currency "CAD" |} ].

(** What [PreferencesManager] renders.  [currency_form] is [None] when the
    "Feature Disabled" notice stands in for the form. *)
Record manager_view : Type := {
  current_currency : value;
  current_theme : string;
  currency_form : option (list radio);
  badge : string;
  flag_form_flagName : string;
  flag_button : bool -> submit_button
}.

Definition PreferencesManager (props : ServerActions.preferences) : manager_view :=
  let currency := ServerActions.p_currency props in
  let currencyToggleEnabled := ServerActions.p_currencyToggleEnabled props in
  {| current_currency := currency;
     current_theme := ServerActions.p_theme props;
     currency_form :=
       if ToBoolean currencyToggleEnabled
       then Some (currency_radios currency) else None;
     badge := if ToBoolean currencyToggleEnabled then "Enabled" else "Disabled";
     flag_form_flagName := "currencyToggleEnabled";
     flag_button :=
       SubmitButton
         (Some (if ToBoolean currencyToggleEnabled
                then "Disable Feature" else "Enable Feature"))
         (Some "Toggling...") |}.

(** *** Form submission by the browser

    In a radio group at most one button is checked.  Before the user chooses,
    it is the last one marked checked; the submitted entry is the checked
    button's value, and there is no entry when none is checked. *)
Fixpoint initially_checked_from (radios : list radio) (i : nat) (found : option nat)
    : option nat :=
  match radios with
  | [] => found
  | r :: rest =>
      initially_checked_from rest (S i) (if defaultChecked r then Some i else found)
  end.

Definition initially_checked (radios : list radio) : option nat :=
  initially_checked_from radios 0%nat None.

Definition submit_radio_group (name : string) (radios : list radio)
    (checked : option nat) : ServerActions.FormData :=
  match checked with
  | Some i =>
      match radios !! i with
      | Some r => [(name, VString (radio_value r))]
      | None => []
      end
  | None => []
  end.

(** The entries of the currency form when submitted with [checked] chosen. *)
Definition submit_currency_form (view : manager_view) (checked : option nat)
    : option ServerActions.FormData :=
  match currency_form view with
  | Some radios => Some (submit_radio_group "currency" radios checked)
  | None => None
  end.

(** Whether the currency form is on the page. *)
Definition shows_currency_form (view : manager_view) : bool :=
  match currency_form view with
  | Some _ => true
  | None => false
  end.

(** The entries of the feature-flag form: its hidden input. *)
Definition submit_flag_form (view : manager_view) : ServerActions.FormData :=
  [("flagName", VString (flag_form_flagName view))].

(** [PreferencesManager] as React renders it: the currency and the theme
    are placed between tags before anything else of the view is shown. *)
Definition PreferencesManager_rendered (props : ServerActions.preferences)
    : completion manager_view :=
  _ ← render_child (ServerActions.p_currency props);
  _ ← render_child (VString (ServerActions.p_theme props));
  mret (PreferencesManager props).

End ClientComponents.

(** ** Serving the server-actions page *)

Module Serving.
Import ServerActions.

(** The page as React renders it: the status card places the stored
    currency and theme between tags, then [PreferencesManager] is rendered
    with the props. *)
Record rendered_page : Type := {
  page : page_view;
  manager : ClientComponents.manager_view
}.

Definition render (view : page_view) : completion rendered_page :=
  _ ← render_child (status_currency view);
  _ ← render_child (VString (status_theme view));
  manager ← ClientComponents.PreferencesManager_rendered (props view);
  mret {| page := view; manager := manager |}.

(** *** Requests

    What reaches the server: a submission of either form, or a render of the
    page.  Requests are served one after another; a render that throws
    fails that request only, and the server goes on with the next one. *)
Inductive request : Type :=
| SubmitCurrency (formData : FormData)
| SubmitFlag (formData : FormData)
| RenderPage.

Inductive response : Type :=
| ActionDone
| PageRendered (p : rendered_page)
| RenderFailed (e : exn).

Definition serve (r : request) : action response :=
  match r with
  | SubmitCurrency formData => updateUserCurrency formData;; mret ActionDone
  | SubmitFlag formData => toggleFeatureFlag formData;; mret ActionDone
  | RenderPage =>
      view ← ServerActionsDemoPage;
      mret (match render view with
            | Normal p => PageRendered p
            | Throw e => RenderFailed e
            end)
  end.

Fixpoint serve_all (rs : list request) : action unit :=
  match rs with
  | [] => mret tt
  | r :: rest => serve r;; serve_all rest
  end.

(** The simulated latency of a request, in milliseconds. *)
Definition latency (r : request) : Z :=
  match r with
  | SubmitCurrency _ => 500
  | SubmitFlag _ => 300
  | RenderPage => 100
  end.

Definition is_mutation (r : request) : bool :=
  match r with
  | SubmitCurrency _ | SubmitFlag _ => true
  | RenderPage => false
  end.

End Serving.

(** ** app/page.js: the components of the page *)

Module PageTree.

Record header_view : Type := {
  title : string;
  version : string;
  lastUpdated : string;
  environment : value
}.

(** [StaticHeader], given [process.env] and the text of
    [new Date().toISOString()]. *)
Definition StaticHeader (env : gmap string string) (now : string) : header_view :=
  {| title := "Global Configuration Dashboard";
     version := "2.0.0";
     lastUpdated := before_first_T now;
     environment := or_else (env_get env "NODE_ENV") (VString "development") |}.

Record stats_view : Type := {
  requestTimestamp : string;
  serverRegion : value;
  nodeVersion : string;
  platform : string
}.

(** [ServerStatsCard], given [process.env], the timestamp text and the
    [process.version] and [process.platform] strings. *)
Definition ServerStatsCard (env : gmap string string) (now : string)
    (process_version process_platform : string) : stats_view :=
  {| requestTimestamp := now;
     serverRegion := or_else (env_get env "SERVER_REGION") (VString "us-east-1");
     nodeVersion := process_version;
     platform := process_platform |}.

(** The [serverInitialData] object the page builds for the visualization. *)
Definition serverInitialData (AUTH_TOKEN : value) (GEO_COUNTRY_CODE : string)
    : list (string * value) :=
  let config := Page.deriveConfig AUTH_TOKEN GEO_COUNTRY_CODE in
  [ ("AUTH_TOKEN", AUTH_TOKEN);
    ("GEO_COUNTRY_CODE", VString GEO_COUNTRY_CODE);
    ("isLoggedIn", VBoolean (Page.isLoggedIn config));
    ("currencyCode", VString (Page.currencyCode config));
    ("userLocation", VString (Page.userLocation config)) ].

(** The state [UserProvider] starts from: the derived values, as props. *)
Definition provider (AUTH_TOKEN : value) (GEO_COUNTRY_CODE : string) : Dashboard.state :=
  let config := Page.deriveConfig AUTH_TOKEN GEO_COUNTRY_CODE in
  Dashboard.UserProvider (Page.isLoggedIn config) (Page.currencyCode config)
                         (Page.userLocation config).

Record children_view : Type := {
  currency_toggle : Dashboard.currency_toggle_view;
  feature_flags : list Dashboard.feature;
  data_flow : string
}.

(** The three components rendered inside [UserProvider], after the given
    clicks on the buttons. *)
Definition children (AUTH_TOKEN : value) (GEO_COUNTRY_CODE : string)
    (clicks : list Dashboard.click) : completion children_view :=
  state ← Dashboard.on_clicks clicks (provider AUTH_TOKEN GEO_COUNTRY_CODE);
  let ancestors := [state] in
  toggle ← Dashboard.CurrencyToggle ancestors;
  flags ← Dashboard.FeatureFlags ancestors;
  flow ← Dashboard.DataFlowVisualization_status
           (serverInitialData AUTH_TOKEN GEO_COUNTRY_CODE) ancestors;
  mret {| currency_toggle := toggle; feature_flags := flags; data_flow := flow |}.

End PageTree.


(** * Properties *)

(** ** Strict equality on strings *)

Lemma strict_eq_string_true (a b : string) :
  strict_eq_string a b = true <-> a = b.
Proof. unfold strict_eq_string. apply String.eqb_eq. Qed.

Lemma strict_eq_string_false (a b : string) :
  strict_eq_string a b = false <-> a <> b.
Proof. unfold strict_eq_string. apply String.eqb_neq. Qed.

(** ** The configuration derivation (app/page.js) *)

(** C2. For every boolean [authToken] and every string [geoCountryCode] the
    derived configuration has [isLoggedIn] equal to [authToken], [currencyCode]
    equal to "CAD" when [geoCountryCode] is "CA" and "USD" otherwise, and
    [userLocation] equal to [geoCountryCode]; the derivation is a total
    function and coincides with the reference definition of the
    specification. *)
Theorem deriveConfig_reference_correct (authToken : bool) (geoCountryCode : string) :
  let config := Page.deriveConfig (VBoolean authToken) geoCountryCode in
  Page.isLoggedIn config = authToken /\
  Page.currencyCode config
    = (if decide (geoCountryCode = "CA") then "CAD" else "USD") /\
  Page.userLocation config = geoCountryCode /\
  config = Page.deriveConfig_reference authToken geoCountryCode.
Proof.
  cbv zeta. unfold Page.deriveConfig, Page.deriveConfig_reference.
  cbn [Page.isLoggedIn Page.currencyCode Page.userLocation ToBoolean].
  destruct (strict_eq_string geoCountryCode "CA") eqn:E.
  - apply strict_eq_string_true in E.
    destruct (decide (geoCountryCode = "CA")); [auto | contradiction].
  - apply strict_eq_string_false in E.
    destruct (decide (geoCountryCode = "CA")); [contradiction | auto].
Qed.

(** The page itself is rendered for a logged-in Canadian user. *)
Lemma GlobalConfigurationPage_value :
  Page.GlobalConfigurationPage
  = {| Page.isLoggedIn := true;
       Page.currencyCode := "CAD";
       Page.userLocation := "CA" |}.
Proof. reflexivity. Qed.

(** C6, as stated, fails: "FR" is outside the recognised codes, and the derived
    location is "FR", not the default "US". *)
Lemma deriveConfig_unrecognized_not_US :
  ~ In "FR" ["CA"; "US"; "EU"; "UK"; "JP"] /\
  ~ (Page.currencyCode (Page.deriveConfig (VBoolean true) "FR") = "USD" /\
     Page.userLocation (Page.deriveConfig (VBoolean true) "FR") = "US").
Proof.
  split.
  - cbn. intuition discriminate.
  - intros [_ H]. vm_compute in H. discriminate H.
Qed.

(** C6 (amended). For every [geoCountryCode] other than "CA" the derived
    currency falls back to "USD", while the derived location is the given code,
    passed through unchanged. *)
Theorem deriveConfig_fallback (authToken : value) (geoCountryCode : string) :
  geoCountryCode <> "CA" ->
  Page.currencyCode (Page.deriveConfig authToken geoCountryCode) = "USD" /\
  Page.userLocation (Page.deriveConfig authToken geoCountryCode) = geoCountryCode.
Proof.
  intros Hne. unfold Page.deriveConfig.
  cbn [Page.currencyCode Page.userLocation].
  apply strict_eq_string_false in Hne. rewrite Hne. split; reflexivity.
Qed.

Lemma deriveConfig_fallback_witness :
  "FR" <> "CA" /\
  Page.currencyCode (Page.deriveConfig (VBoolean false) "FR") = "USD" /\
  Page.userLocation (Page.deriveConfig (VBoolean false) "FR") = "FR".
Proof.
  split; [discriminate | apply (deriveConfig_fallback (VBoolean false) "FR"); discriminate].
Defined.

(** ** The client state container (app/GlobalConfigDashboard.jsx) *)

(** The search of [toggleLocation] over any list of regions: no region with
    the wanted location means the not-found index. *)
Lemma findIndex_from_not_found (wanted : string) (l : list Dashboard.region) (i : Z) :
  ~ In wanted (map Dashboard.location l) ->
  findIndex_from (fun r => strict_eq_string (Dashboard.location r) wanted) l i = -1.
Proof.
  revert i. induction l as [| r rest IH]; intros i Hnot; cbn.
  - reflexivity.
  - destruct (strict_eq_string (Dashboard.location r) wanted) eqn:E.
    + apply strict_eq_string_true in E. exfalso. apply Hnot. left. exact E.
    + apply IH. intros Hin. apply Hnot. right. exact Hin.
Qed.

(** When the search succeeds the index lies inside the array. *)
Lemma findIndex_from_range {A} (p : A -> bool) (l : list A) (i : Z) :
  findIndex_from p l i = -1 \/
  i <= findIndex_from p l i < i + Js.length l.
Proof.
  revert i. induction l as [| x rest IH]; intros i; cbn.
  - left. reflexivity.
  - destruct (p x).
    + right. unfold Js.length. cbn [List.length]. lia.
    + destruct (IH (i + 1)) as [H | H]; [left; exact H |].
      right. unfold Js.length in *. cbn [List.length]. lia.
Qed.

(** [toggleLocation] never reads past the array: it returns for every
    state. *)
Lemma toggleLocation_returns (s : Dashboard.state) :
  exists s', Dashboard.toggleLocation s = Normal s'.
Proof.
  unfold Dashboard.toggleLocation.
  set (p := fun l => strict_eq_string (Dashboard.location l) (Dashboard.userLocation s)).
  destruct (findIndex_from_range p Dashboard.locations 0) as [H | H];
    fold (findIndex p Dashboard.locations) in H.
  - rewrite H. cbn. eauto.
  - change (Js.length Dashboard.locations) with 5 in *.
    assert (Hc : findIndex p Dashboard.locations = 0 \/
                 findIndex p Dashboard.locations = 1 \/
                 findIndex p Dashboard.locations = 2 \/
                 findIndex p Dashboard.locations = 3 \/
                 findIndex p Dashboard.locations = 4) by lia.
    destruct Hc as [E | [E | [E | [E | E]]]]; rewrite E; cbn; eauto.
Qed.

(** C3. From every state whose (location, currency) pair is an entry of the
    cycle (US,USD), (CA,CAD), (EU,EUR), (UK,GBP), (JP,JPY), one application of
    [toggleLocation] moves the pair to the entry that follows it (the last one
    being followed by the first), and five applications return the state to
    what it was. *)
Theorem toggleLocation_cycle (s : Dashboard.state) (here next : string * string) :
  In (here, next) Dashboard.cycle_successor ->
  Dashboard.pair_of s = here ->
  (exists s', Dashboard.toggleLocation s = Normal s' /\
              Dashboard.pair_of s' = next /\
              Dashboard.isLoggedIn s' = Dashboard.isLoggedIn s) /\
  (exists s5, Dashboard.toggleLocation_times 5 s = Normal s5 /\
              Dashboard.pair_of s5 = Dashboard.pair_of s /\
              s5 = s).
Proof.
  intros Hin Hpair. destruct s as [logged loc cur].
  unfold Dashboard.pair_of in *. cbn [Dashboard.userLocation Dashboard.currencyCode] in *.
  cbn in Hin.
  repeat (destruct Hin as [Hin | Hin];
          [ injection Hin as <- <-; injection Hpair as -> ->;
            split; eexists; (split; [vm_compute; reflexivity | split; reflexivity]) | ]).
  contradiction.
Qed.

Lemma toggleLocation_cycle_witness :
  exists s5,
    Dashboard.toggleLocation_times 5 (Dashboard.UserProvider true "GBP" "UK") = Normal s5 /\
    s5 = Dashboard.UserProvider true "GBP" "UK".
Proof.
  destruct (toggleLocation_cycle (Dashboard.UserProvider true "GBP" "UK")
              ("UK", "GBP") ("JP", "JPY")) as [_ [s5 [H5 [_ Heq]]]].
  - cbn. right. right. right. left. reflexivity.
  - reflexivity.
  - exists s5. split; assumption.
Defined.

(** C5. [toggleLoginStatus] flips [isLoggedIn] and leaves [currencyCode] and
    [userLocation] as they were; applying it twice gives back the original
    [isLoggedIn] (indeed the original state). *)
Theorem toggleLoginStatus_involution (s : Dashboard.state) :
  Dashboard.isLoggedIn (Dashboard.toggleLoginStatus s)
    = negb (Dashboard.isLoggedIn s) /\
  Dashboard.currencyCode (Dashboard.toggleLoginStatus s) = Dashboard.currencyCode s /\
  Dashboard.userLocation (Dashboard.toggleLoginStatus s) = Dashboard.userLocation s /\
  Dashboard.isLoggedIn (Dashboard.toggleLoginStatus (Dashboard.toggleLoginStatus s))
    = Dashboard.isLoggedIn s /\
  Dashboard.toggleLoginStatus (Dashboard.toggleLoginStatus s) = s.
Proof.
  destruct s as [logged loc cur]. unfold Dashboard.toggleLoginStatus.
  cbn [Dashboard.isLoggedIn Dashboard.currencyCode Dashboard.userLocation].
  rewrite negb_involutive. repeat split; reflexivity.
Qed.

(** C7. From every state whose [userLocation] is none of the five cycle
    locations the search yields -1, (-1 + 1) % 5 selects index 0, and one
    application of [toggleLocation] sets [userLocation] to "US" and
    [currencyCode] to "USD" ([isLoggedIn] is kept). *)
Theorem toggleLocation_unmatched (s : Dashboard.state) :
  ~ In (Dashboard.userLocation s) ["US"; "CA"; "EU"; "UK"; "JP"] ->
  findIndex (fun l => strict_eq_string (Dashboard.location l) (Dashboard.userLocation s))
            Dashboard.locations = -1 /\
  rem (-1 + 1) (Js.length Dashboard.locations) = 0 /\
  Dashboard.toggleLocation s
    = Normal {| Dashboard.isLoggedIn := Dashboard.isLoggedIn s;
                Dashboard.userLocation := "US";
                Dashboard.currencyCode := "USD" |}.
Proof.
  intros Hnot.
  assert (Hidx : findIndex (fun l => strict_eq_string (Dashboard.location l)
                                       (Dashboard.userLocation s))
                           Dashboard.locations = -1).
  { unfold findIndex. apply findIndex_from_not_found. exact Hnot. }
  split; [exact Hidx | split; [reflexivity |]].
  unfold Dashboard.toggleLocation. rewrite Hidx. reflexivity.
Qed.

Lemma toggleLocation_unmatched_witness :
  Dashboard.toggleLocation (Dashboard.UserProvider false "EUR" "FR")
  = Normal (Dashboard.UserProvider false "USD" "US").
Proof.
  apply (toggleLocation_unmatched (Dashboard.UserProvider false "EUR" "FR")).
  cbn. intuition discriminate.
Defined.

(** C9. Whenever no [UserProvider] encloses the reader (the context read is
    [null]), [useUserContext] throws, and the throw reaches the caller: every
    component reading the container ends with the same thrown error instead of
    a rendered value. *)
Theorem useUserContext_without_provider (ancestors : Dashboard.scope) :
  Dashboard.useContext ancestors = None ->
  let e := Error "useUserContext must be used within a UserProvider" in
  Dashboard.useUserContext ancestors = Throw e /\
  Dashboard.CurrencyToggle ancestors = Throw e /\
  Dashboard.FeatureFlags ancestors = Throw e /\
  Dashboard.DataFlowVisualization ancestors = Throw e.
Proof.
  intros Hnone. cbv zeta.
  assert (H : Dashboard.useUserContext ancestors
              = Throw (Error "useUserContext must be used within a UserProvider")).
  { unfold Dashboard.useUserContext. rewrite Hnone. reflexivity. }
  unfold Dashboard.CurrencyToggle, Dashboard.FeatureFlags,
    Dashboard.DataFlowVisualization.
  rewrite H. repeat split; reflexivity.
Qed.

Lemma useUserContext_without_provider_witness :
  Dashboard.useUserContext [] =
    Throw (Error "useUserContext must be used within a UserProvider") /\
  Dashboard.CurrencyToggle [] =
    Throw (Error "useUserContext must be used within a UserProvider").
Proof.
  destruct (useUserContext_without_provider []) as [H1 [H2 _]].
  - reflexivity.
  - split; assumption.
Defined.

(** With a provider above, the nearest one is what the reader gets. *)
Lemma useUserContext_nearest (nearest : Dashboard.state) (outer : Dashboard.scope) :
  Dashboard.useUserContext (nearest :: outer) = Normal nearest.
Proof. reflexivity. Qed.

(** ** The preferences store (server actions) *)

Section Store.
Import ServerActions.

(** What [updateUserCurrency] does to the world, in one equation. *)
Lemma updateUserCurrency_run (formData : FormData) (w : world) :
  updateUserCurrency formData w
  = Normal (tt,
      {| db := {| USER_PREFERENCES :=
                    {| currency := FormData_get formData "currency";
                       theme := theme (USER_PREFERENCES (db w)) |};
                  FEATURE_FLAGS := FEATURE_FLAGS (db w) |};
         elapsed := elapsed w + 500;
         revalidated := "/server-actions-demo" :: revalidated w |}).
Proof. reflexivity. Qed.

(** What [getServerPreferences] reads, in one equation. *)
Lemma getServerPreferences_run (w : world) :
  getServerPreferences w
  = Normal ({| p_currency := currency (USER_PREFERENCES (db w));
               p_theme := theme (USER_PREFERENCES (db w));
               p_currencyToggleEnabled :=
                 Get (FEATURE_FLAGS (db w)) "currencyToggleEnabled" |},
            {| db := db w; elapsed := elapsed w + 100;
               revalidated := revalidated w |}).
Proof. reflexivity. Qed.

(** What [toggleFeatureFlag] does to the world, in one equation. *)
Lemma toggleFeatureFlag_run (formData : FormData) (w : world) :
  let key := ToPropertyKey (FormData_get formData "flagName") in
  toggleFeatureFlag formData w
  = Normal (tt,
      {| db := {| USER_PREFERENCES := USER_PREFERENCES (db w);
                  FEATURE_FLAGS :=
                    Put (FEATURE_FLAGS (db w)) key
                        (Js.not (Get (FEATURE_FLAGS (db w)) key)) |};
         elapsed := elapsed w + 300;
         revalidated := "/server-actions-demo" :: revalidated w |}).
Proof. reflexivity. Qed.

(** Reading back a key that no object literal inherits. *)
Lemma Get_Put_not_inherited (own : gmap string bool) (k : string) (b : bool) :
  inherited k = false -> Get (Put own k b) k = VBoolean b.
Proof.
  unfold inherited. intros H. apply orb_false_elim in H as [_ Hacc].
  unfold Get, Put. destruct (own !! k) eqn:E.
  - rewrite lookup_insert_eq. reflexivity.
  - rewrite Hacc. rewrite lookup_insert_eq. reflexivity.
Qed.

Lemma Get_absent_not_inherited (own : gmap string bool) (k : string) :
  inherited k = false -> own !! k = None -> Get own k = VUndefined.
Proof.
  unfold inherited. intros H Hnone. apply orb_false_elim in H as [Hm Hacc].
  unfold Get. rewrite Hnone, Hm, Hacc. reflexivity.
Qed.

(** C1. If [updateUserCurrency] is invoked with form data whose 'currency'
    field is the string [c], it runs to completion, the route is revalidated,
    and a [getServerPreferences] call made on the resulting store returns a
    record whose currency is [c]; so does the page render that follows. *)
Theorem updateUserCurrency_no_stale_read (c : string) (formData : FormData) (w : world) :
  FormData_get formData "currency" = VString c ->
  exists w1 prefs w2,
    updateUserCurrency formData w = Normal (tt, w1) /\
    In "/server-actions-demo" (revalidated w1) /\
    getServerPreferences w1 = Normal (prefs, w2) /\
    p_currency prefs = VString c /\
    (exists view w3, ServerActionsDemoPage w1 = Normal (view, w3) /\
                     p_currency (props view) = VString c /\
                     status_currency view = VString c).
Proof.
  intros Hget. rewrite updateUserCurrency_run.
  eexists. eexists. eexists.
  split; [reflexivity |].
  split; [left; reflexivity |].
  rewrite getServerPreferences_run.
  split; [reflexivity |].
  split; [exact Hget |].
  eexists. eexists. split; [reflexivity |].
  split; exact Hget.
Qed.

Lemma updateUserCurrency_no_stale_read_witness :
  exists w1 prefs w2,
    updateUserCurrency (currency_form "EUR") world_initial = Normal (tt, w1) /\
    getServerPreferences w1 = Normal (prefs, w2) /\
    p_currency prefs = VString "EUR".
Proof.
  destruct (updateUserCurrency_no_stale_read "EUR" (currency_form "EUR") world_initial)
    as [w1 [prefs [w2 [H1 [_ [H2 [H3 _]]]]]]].
  - reflexivity.
  - exists w1, prefs, w2. repeat split; assumption.
Defined.

(** C4. The code at a flag name that fails the claim: "toString" is not a
    flag of the initial store, yet the lookup finds the method every object
    literal inherits, which is truthy, so the first toggle stores [false]
    where the claim asks for [true]. *)
Lemma toggleFeatureFlag_toString_false :
  FEATURE_FLAGS (db world_initial) !! "toString" = None /\
  exists w1,
    after (toggleFeatureFlag (flag_form "toString")) world_initial = Some w1 /\
    flag w1 "toString" = VBoolean false /\
    flag w1 "toString" <> VBoolean true.
Proof.
  split; [reflexivity |].
  eexists. split; [reflexivity |].
  split; [vm_compute; reflexivity | vm_compute; discriminate].
Qed.

(** Away from the inherited names the toggle does what is asked of it: for
    every flag name [f] other than the property names an object literal
    inherits ([toString], [constructor], [__proto__], ...),
    [toggleFeatureFlag] replaces the flag by the negation of its truth value
    and a second application restores that truth value; in particular, on a
    flag absent from the flag set the first application yields [true] (the
    flag is created) and the second yields [false]. *)
Theorem toggleFeatureFlag_flips (f : string) (w : world) :
  inherited f = false ->
  exists w1 w2,
    after (toggleFeatureFlag (flag_form f)) w = Some w1 /\
    after (toggleFeatureFlag (flag_form f)) w1 = Some w2 /\
    flag w1 f = VBoolean (negb (ToBoolean (flag w f))) /\
    flag w2 f = VBoolean (ToBoolean (flag w f)) /\
    (FEATURE_FLAGS (db w) !! f = None ->
     flag w1 f = VBoolean true /\ flag w2 f = VBoolean false).
Proof.
  intros Hinh.
  unfold after. rewrite toggleFeatureFlag_run. cbv zeta.
  eexists. eexists. split; [reflexivity |].
  rewrite toggleFeatureFlag_run. cbv zeta.
  split; [reflexivity |].
  unfold flag, flag_form.
  cbn [FormData_get String.eqb Ascii.eqb Bool.eqb ToPropertyKey db FEATURE_FLAGS].
  rewrite !(Get_Put_not_inherited _ f _ Hinh).
  unfold Js.not. cbn [ToBoolean]. rewrite negb_involutive.
  split; [reflexivity | split; [reflexivity |]].
  intros Hnone. rewrite (Get_absent_not_inherited _ f Hinh Hnone).
  split; reflexivity.
Qed.

Lemma toggleFeatureFlag_flips_witness :
  exists w1 w2,
    after (toggleFeatureFlag (flag_form "x")) world_initial = Some w1 /\
    after (toggleFeatureFlag (flag_form "x")) w1 = Some w2 /\
    flag w1 "x" = VBoolean true /\ flag w2 "x" = VBoolean false.
Proof.
  destruct (toggleFeatureFlag_flips "x" world_initial)
    as [w1 [w2 [H1 [H2 [_ [_ H]]]]]].
  - reflexivity.
  - destruct H as [Ht Hf]; [reflexivity |].
    exists w1, w2. repeat split; assumption.
Defined.

(** C8. For every string [s], in the currency enumeration or not,
    [updateUserCurrency] with 'currency' = [s] returns without throwing and
    the store's currency field is [s] afterwards, whatever it was before. *)
Theorem updateUserCurrency_accepts_anything (s : string) (formData : FormData) (w : world) :
  FormData_get formData "currency" = VString s ->
  exists w',
    updateUserCurrency formData w = Normal (tt, w') /\
    currency (USER_PREFERENCES (db w')) = VString s.
Proof.
  intros Hget. rewrite updateUserCurrency_run. eexists.
  split; [reflexivity |]. exact Hget.
Qed.

Lemma updateUserCurrency_accepts_anything_witness :
  exists w',
    updateUserCurrency (currency_form "not a currency") world_initial = Normal (tt, w') /\
    currency (USER_PREFERENCES (db w')) = VString "not a currency".
Proof.
  apply (updateUserCurrency_accepts_anything "not a currency"
           (currency_form "not a currency") world_initial).
  reflexivity.
Defined.

(** C10. [updateUserCurrency] changes nothing of [db] but
    [USER_PREFERENCES.currency]: the theme and every feature flag, own or
    looked up ([currencyToggleEnabled] among them), are as before. *)
Theorem updateUserCurrency_frame (formData : FormData) (w : world) :
  exists w',
    updateUserCurrency formData w = Normal (tt, w') /\
    theme (USER_PREFERENCES (db w')) = theme (USER_PREFERENCES (db w)) /\
    FEATURE_FLAGS (db w') = FEATURE_FLAGS (db w) /\
    (forall f, flag w' f = flag w f) /\
    flag w' "currencyToggleEnabled" = flag w "currencyToggleEnabled" /\
    db w' = {| USER_PREFERENCES :=
                 {| currency := FormData_get formData "currency";
                    theme := theme (USER_PREFERENCES (db w)) |};
               FEATURE_FLAGS := FEATURE_FLAGS (db w) |}.
Proof.
  rewrite updateUserCurrency_run. eexists. split; [reflexivity |].
  unfold flag. cbn [db USER_PREFERENCES FEATURE_FLAGS theme].
  repeat split; reflexivity.
Qed.

(** The other requests leave the preferences alone: a flag toggle writes
    only [FEATURE_FLAGS], and a read writes nothing. *)
Lemma toggleFeatureFlag_keeps_preferences (formData : FormData) (w : world) :
  exists w',
    toggleFeatureFlag formData w = Normal (tt, w') /\
    USER_PREFERENCES (db w') = USER_PREFERENCES (db w).
Proof. rewrite toggleFeatureFlag_run. eexists. split; reflexivity. Qed.

Lemma getServerPreferences_keeps_db (w : world) :
  exists prefs w',
    getServerPreferences w = Normal (prefs, w') /\ db w' = db w.
Proof. rewrite getServerPreferences_run. eexists. eexists. split; reflexivity. Qed.

(** The inherited accessor shows the other way a name can escape the toggle:
    the write to [__proto__] is discarded and the flag set is unchanged. *)
Lemma toggleFeatureFlag_proto_accessor (w : world) :
  FEATURE_FLAGS (db w) !! "__proto__" = None ->
  exists w',
    after (toggleFeatureFlag (flag_form "__proto__")) w = Some w' /\
    FEATURE_FLAGS (db w') = FEATURE_FLAGS (db w).
Proof.
  intros Hnone. unfold after. rewrite toggleFeatureFlag_run. cbv zeta.
  eexists. split; [reflexivity |].
  unfold flag_form.
  cbn [FormData_get String.eqb Ascii.eqb Bool.eqb ToPropertyKey db FEATURE_FLAGS].
  unfold Put. rewrite Hnone. reflexivity.
Qed.

End Store.

(** ** More on the client state container *)

Section Clicks.
Import Dashboard.

(** The region [toggleLocation] moves to, for any state. *)
Lemma toggleLocation_region (s : state) :
  exists r,
    In r locations /\
    toggleLocation s
    = Normal {| isLoggedIn := isLoggedIn s;
                userLocation := location r;
                currencyCode := currency r |}.
Proof.
  unfold toggleLocation.
  set (p := fun l => strict_eq_string (location l) (userLocation s)).
  destruct (findIndex_from_range p locations 0) as [H | H];
    fold (findIndex p locations) in H.
  - rewrite H. eexists. split; [| reflexivity]. cbn. auto.
  - change (Js.length locations) with 5 in *.
    assert (Hc : findIndex p locations = 0 \/ findIndex p locations = 1 \/
                 findIndex p locations = 2 \/ findIndex p locations = 3 \/
                 findIndex p locations = 4) by lia.
    destruct Hc as [E | [E | [E | [E | E]]]]; rewrite E;
      (eexists; split; [| reflexivity]); cbn; auto 10.
Qed.

(** X1. Whatever the state, [toggleLocation] returns (it never reads past
    the array), keeps [isLoggedIn], and leaves a (location, currency) pair
    that is one of the five entries of [locations], also when the pair it
    started from was not. *)
Theorem toggleLocation_lands_in_locations (s : state) :
  exists s',
    toggleLocation s = Normal s' /\
    isLoggedIn s' = isLoggedIn s /\
    In {| location := userLocation s'; currency := currencyCode s' |} locations.
Proof.
  destruct (toggleLocation_region s) as [r [Hin ->]].
  eexists. split; [reflexivity |]. split; [reflexivity |].
  cbn [userLocation currencyCode]. destruct r. exact Hin.
Qed.

Lemma toggleLocation_times_add (a b : nat) (s : state) :
  toggleLocation_times (a + b) s
  = (s' ← toggleLocation_times a s; toggleLocation_times b s').
Proof.
  revert s. induction a as [| a IH]; intros s; cbn [Nat.add toggleLocation_times].
  - reflexivity.
  - destruct (toggleLocation s) as [s1 | e]; cbn; [apply IH | reflexivity].
Qed.

Lemma toggleLocation_five_on_entry (r : region) (logged : bool) :
  In r locations ->
  toggleLocation_times 5 {| isLoggedIn := logged;
                            userLocation := location r;
                            currencyCode := currency r |}
  = Normal {| isLoggedIn := logged;
              userLocation := location r;
              currencyCode := currency r |}.
Proof.
  intros Hin. cbn in Hin.
  repeat (destruct Hin as [<- | Hin]; [vm_compute; reflexivity |]).
  contradiction.
Qed.

(** X2. From any state, matched or not, the states seen after the first
    click on "Cycle Location/Currency" repeat with period five: [n + 1] clicks
    and [n + 1 + 5] clicks give the same state. *)
Theorem toggleLocation_times_period (s : state) (n : nat) :
  toggleLocation_times (S n + 5) s = toggleLocation_times (S n) s.
Proof.
  assert (Hstep : forall m, toggleLocation_times (S m) s
                            = (s' ← toggleLocation s; toggleLocation_times m s'))
    by reflexivity.
  replace (S n + 5)%nat with (S (5 + n)) by lia.
  rewrite (Hstep (5 + n)%nat), (Hstep n).
  destruct (toggleLocation_region s) as [r [Hin ->]].
  change (toggleLocation_times (5 + n)
            {| isLoggedIn := isLoggedIn s; userLocation := location r;
               currencyCode := currency r |}
          = toggleLocation_times n
              {| isLoggedIn := isLoggedIn s; userLocation := location r;
                 currencyCode := currency r |}).
  rewrite toggleLocation_times_add.
  rewrite (toggleLocation_five_on_entry r _ Hin). reflexivity.
Qed.

Lemma toggleLocation_login_swap (s : state) :
  toggleLocation (toggleLoginStatus s)
  = (s' ← toggleLocation s; mret (toggleLoginStatus s')).
Proof.
  unfold toggleLocation, toggleLoginStatus.
  cbn [userLocation isLoggedIn currencyCode].
  destruct (index locations _); reflexivity.
Qed.

(** X3. The two updaters commute: toggling the login status and then cycling
    the location gives the same state as cycling first and toggling after. *)
Theorem toggleLocation_toggleLoginStatus_commute (s : state) :
  exists s1 s2,
    toggleLocation s = Normal s1 /\
    toggleLocation (toggleLoginStatus s) = Normal s2 /\
    s2 = toggleLoginStatus s1.
Proof.
  rewrite toggleLocation_login_swap.
  destruct (toggleLocation_region s) as [r [_ ->]].
  do 2 eexists. split; [reflexivity |]. split; reflexivity.
Qed.

Lemma toggleLocation_times_toggleLoginStatus (n : nat) (s : state) :
  toggleLocation_times n (toggleLoginStatus s)
  = (s' ← toggleLocation_times n s; mret (toggleLoginStatus s')).
Proof.
  revert s. induction n as [| n IH]; intros s; cbn [toggleLocation_times].
  - reflexivity.
  - rewrite toggleLocation_login_swap.
    destruct (toggleLocation s) as [s1 | e]; cbn; [apply IH | reflexivity].
Qed.

Lemma toggleLoginStatus_times_shift (n : nat) (s : state) :
  toggleLoginStatus_times n (toggleLoginStatus s)
  = toggleLoginStatus (toggleLoginStatus_times n s).
Proof.
  revert s. induction n as [| n IH]; intros s; cbn; [reflexivity | apply IH].
Qed.

Lemma toggleLocation_times_returns (n : nat) (s : state) :
  exists s', toggleLocation_times n s = Normal s'.
Proof.
  revert s. induction n as [| n IH]; intros s; cbn [toggleLocation_times].
  - eauto.
  - destruct (toggleLocation_region s) as [r [_ ->]]. cbn. apply IH.
Qed.

Lemma on_clicks_returns (cs : list click) (s : state) :
  exists s', on_clicks cs s = Normal s'.
Proof.
  revert s. induction cs as [| c rest IH]; intros s; cbn [on_clicks].
  - eauto.
  - destruct c; cbn [on_click].
    + destruct (toggleLocation_region s) as [r [_ ->]]. apply IH.
    + apply IH.
Qed.

(** X4. Any sequence of clicks on the two buttons ends in a state, without a
    throw, and that state depends only on how many clicks of each kind there
    were: it is the state reached by all the cycle clicks followed by all the
    login clicks. *)
Theorem on_clicks_counts (cs : list click) (s : state) :
  exists s_cycled,
    toggleLocation_times (List.length (List.filter is_cycle_click cs)) s = Normal s_cycled /\
    on_clicks cs s
    = Normal (toggleLoginStatus_times (List.length (List.filter is_login_click cs)) s_cycled).
Proof.
  revert s. induction cs as [| c rest IH]; intros s.
  - exists s. split; reflexivity.
  - destruct c; cbn [on_clicks on_click List.filter is_cycle_click is_login_click].
    + cbn [List.length toggleLocation_times].
      destruct (toggleLocation_region s) as [r [_ ->]]. cbn.
      apply IH.
    + cbn [List.length toggleLoginStatus_times]. cbn.
      destruct (IH (toggleLoginStatus s)) as [s1 [H1 H2]].
      rewrite toggleLocation_times_toggleLoginStatus in H1.
      destruct (toggleLocation_times _ s) as [s0 | e] eqn:E0; cbn in H1;
        [| discriminate H1].
      injection H1 as <-.
      exists s0. split; [reflexivity |].
      rewrite H2. rewrite toggleLoginStatus_times_shift.
      rewrite <- toggleLoginStatus_times_shift. reflexivity.
Qed.

(** X5. Under a provider, [FeatureFlags] lists its four features under
    their names, of which "Premium Dashboard" and "Guest Checkout" are never
    enabled together nor disabled together, "Multi-Currency Support" is
    enabled only if "Regional Promotions" is, and so between one and three
    features are enabled. *)
Theorem FeatureFlags_enabled (ctx : state) (outer : scope) :
  exists premium multi regional guest : bool,
    FeatureFlags (ctx :: outer)
    = Normal [ {| name := "Premium Dashboard"; enabled := premium |};
               {| name := "Multi-Currency Support"; enabled := multi |};
               {| name := "Regional Promotions"; enabled := regional |};
               {| name := "Guest Checkout"; enabled := guest |} ] /\
    premium = negb guest /\
    (multi = true -> regional = true) /\
    (1 <= List.length (List.filter (fun b : bool => b) [premium; multi; regional; guest])
       <= 3)%nat.
Proof.
  unfold FeatureFlags. cbn [useUserContext useContext].
  do 4 eexists. split; [reflexivity |].
  assert (Himp : includes ["EUR"; "GBP"; "JPY"] (currencyCode ctx) = true ->
                 negb (strict_eq_string (currencyCode ctx) "USD") = true).
  { unfold includes. cbn [existsb]. intros H.
    destruct (strict_eq_string (currencyCode ctx) "USD") eqn:E; [| reflexivity].
    apply strict_eq_string_true in E. rewrite E in H. vm_compute in H.
    discriminate H. }
  split; [rewrite negb_involutive; reflexivity |].
  split; [exact Himp |].
  destruct (includes ["EUR"; "GBP"; "JPY"] (currencyCode ctx)) eqn:Em.
  - rewrite (Himp eq_refl). destruct (isLoggedIn ctx); cbn; lia.
  - destruct (negb (strict_eq_string (currencyCode ctx) "USD"));
      destruct (isLoggedIn ctx); cbn; lia.
Qed.

End Clicks.

(** ** The page and its components (app/page.js) *)

Section Tree.
Import Dashboard PageTree.

(** The text of the object the page builds never equals the text of a client
    snapshot: the former starts with the [AUTH_TOKEN] or, failing that, the
    [GEO_COUNTRY_CODE] key, the latter with [isLoggedIn]. *)
Lemma serverInitialData_text_differs (AUTH_TOKEN : value) (GEO_COUNTRY_CODE : string)
    (s : state) :
  JSON_stringify (serverInitialData AUTH_TOKEN GEO_COUNTRY_CODE)
  <> JSON_stringify (client_snapshot s).
Proof.
  unfold serverInitialData, client_snapshot, JSON_stringify.
  intros H. apply (f_equal (String.get 2)) in H.
  destruct AUTH_TOKEN as [| | [|] | t | f | f |]; destruct (isLoggedIn s);
    vm_compute in H; discriminate H.
Qed.

(** X6. On the page, [DataFlowVisualization] reports "State has been
    modified client-side!" whatever the server inputs and whatever the clicks,
    also before any click: the object it is given carries the two request
    values in front of the three state fields, so the two texts never agree. *)
Theorem children_data_flow_always_modified
    (AUTH_TOKEN : value) (GEO_COUNTRY_CODE : string) (clicks : list click) :
  exists view,
    children AUTH_TOKEN GEO_COUNTRY_CODE clicks = Normal view /\
    data_flow view = "State has been modified client-side!".
Proof.
  unfold children.
  destruct (on_clicks_returns clicks (provider AUTH_TOKEN GEO_COUNTRY_CODE))
    as [s ->].
  cbn [mbind completion_mbind completion_bind CurrencyToggle FeatureFlags
       DataFlowVisualization_status useUserContext useContext mret completion_ret].
  eexists. split; [reflexivity |]. cbn [data_flow].
  unfold strict_neq_string.
  destruct (String.eqb_spec
              (JSON_stringify (serverInitialData AUTH_TOKEN GEO_COUNTRY_CODE))
              (JSON_stringify (client_snapshot s))) as [E | _]; [| reflexivity].
  exfalso. exact (serverInitialData_text_differs _ _ _ E).
Qed.

(** The other branch is taken when the prop is the snapshot itself. *)
Lemma DataFlowVisualization_status_matches (s : state) (outer : scope) :
  DataFlowVisualization_status (client_snapshot s) (s :: outer)
  = Normal "State matches server initial values".
Proof.
  unfold DataFlowVisualization_status. cbn [useUserContext useContext].
  cbn [mbind completion_mbind completion_bind mret completion_ret].
  unfold strict_neq_string. rewrite String.eqb_refl. reflexivity.
Qed.

(** X7. The state the provider starts from pairs a location with its own
    currency, as [locations] has it, exactly when the geography code is "CA"
    or "US"; for every other code, "EU", "UK" and "JP" among them, the
    derived currency "USD" does not belong to the derived location. *)
Theorem provider_pair_in_locations (AUTH_TOKEN : value) (GEO_COUNTRY_CODE : string) :
  (exists r, In r locations /\
             pair_of (provider AUTH_TOKEN GEO_COUNTRY_CODE) = (location r, currency r))
  <-> (GEO_COUNTRY_CODE = "CA" \/ GEO_COUNTRY_CODE = "US").
Proof.
  unfold provider, pair_of, UserProvider, Page.deriveConfig.
  cbn [userLocation currencyCode Page.userLocation Page.currencyCode Page.isLoggedIn].
  split.
  - intros [r [Hin Hpair]]. cbn in Hin.
    repeat (destruct Hin as [<- | Hin];
            [ cbn [location currency] in Hpair; injection Hpair as -> Hcur;
              vm_compute in Hcur;
              first [discriminate Hcur | left; reflexivity | right; reflexivity] |]).
    contradiction.
  - intros [-> | ->].
    + exists {| location := "CA"; currency := "CAD" |}. split; [cbn; auto | reflexivity].
    + exists {| location := "US"; currency := "USD" |}. split; [cbn; auto | reflexivity].
Qed.

(** X8. At first render, for every pair of server inputs, "Multi-Currency
    Support" is disabled, "Regional Promotions" is enabled exactly for "CA",
    and "Premium Dashboard" and "Guest Checkout" follow the truth value of the
    auth token. *)
Theorem children_first_render_features (AUTH_TOKEN : value) (GEO_COUNTRY_CODE : string) :
  exists view,
    children AUTH_TOKEN GEO_COUNTRY_CODE [] = Normal view /\
    feature_flags view
    = [ {| name := "Premium Dashboard"; enabled := ToBoolean AUTH_TOKEN |};
        {| name := "Multi-Currency Support"; enabled := false |};
        {| name := "Regional Promotions";
           enabled := strict_eq_string GEO_COUNTRY_CODE "CA" |};
        {| name := "Guest Checkout"; enabled := negb (ToBoolean AUTH_TOKEN) |} ].
Proof.
  unfold children. cbn [on_clicks].
  cbn [mbind completion_mbind completion_bind CurrencyToggle FeatureFlags
       DataFlowVisualization_status useUserContext useContext mret completion_ret].
  eexists. split; [reflexivity |]. cbn [feature_flags].
  unfold provider, UserProvider, Page.deriveConfig.
  cbn [isLoggedIn currencyCode Page.isLoggedIn Page.currencyCode Page.userLocation].
  destruct (strict_eq_string GEO_COUNTRY_CODE "CA"); reflexivity.
Qed.

(** X9. The environment name shown by [StaticHeader] and the region shown by
    [ServerStatsCard] are never empty: a variable that is set to a non-empty
    text is shown as it is, and one that is unset or set to the empty text
    gives "development", respectively "us-east-1". *)
Theorem environment_defaults (env : gmap string string) (now pv pp : string) :
  let shown (name fallback : string) : value :=
    match env !! name with
    | Some text => if String.eqb text "" then VString fallback else VString text
    | None => VString fallback
    end in
  environment (StaticHeader env now) = shown "NODE_ENV" "development" /\
  serverRegion (ServerStatsCard env now pv pp) = shown "SERVER_REGION" "us-east-1" /\
  environment (StaticHeader env now) <> VString "" /\
  serverRegion (ServerStatsCard env now pv pp) <> VString "".
Proof.
  cbv zeta. unfold StaticHeader, ServerStatsCard, or_else, env_get.
  cbn [environment serverRegion].
  destruct (env !! "NODE_ENV") as [t1 |]; destruct (env !! "SERVER_REGION") as [t2 |];
    cbn [ToBoolean];
    repeat match goal with
           | |- context [String.eqb ?t ""] =>
               destruct (String.eqb_spec t "") as [-> | ?]
           end;
    cbn [negb]; repeat split; congruence.
Qed.

End Tree.

(** ** More on the preferences store *)

Section Requests.
Import ServerActions Serving.

(** X10. [toggleFeatureFlag] writes nothing but the flag it names: the user
    preferences are untouched and so is every flag under another name, both as
    an own property and as a reader sees it. *)
Theorem toggleFeatureFlag_frame (formData : FormData) (w : world) :
  exists w',
    toggleFeatureFlag formData w = Normal (tt, w') /\
    USER_PREFERENCES (db w') = USER_PREFERENCES (db w) /\
    forall k, k <> ToPropertyKey (FormData_get formData "flagName") ->
      FEATURE_FLAGS (db w') !! k = FEATURE_FLAGS (db w) !! k /\
      flag w' k = flag w k.
Proof.
  rewrite toggleFeatureFlag_run. cbv zeta. eexists.
  split; [reflexivity |]. split; [reflexivity |].
  intros k Hk. unfold flag. cbn [db FEATURE_FLAGS].
  set (key := ToPropertyKey (FormData_get formData "flagName")) in *.
  assert (Hown : Put (FEATURE_FLAGS (db w)) key
                     (Js.not (Get (FEATURE_FLAGS (db w)) key)) !! k
                 = FEATURE_FLAGS (db w) !! k).
  { unfold Put. destruct (FEATURE_FLAGS (db w) !! key).
    - apply lookup_insert_ne. congruence.
    - destruct (is_proto_accessor key); [reflexivity |].
      apply lookup_insert_ne. congruence. }
  split; [exact Hown |]. unfold Get at 1 3. rewrite Hown. reflexivity.
Qed.

(** X11. Toggling twice a flag that the flag set owns restores [db]
    exactly: both preferences and flags are what they were. *)
Theorem toggleFeatureFlag_twice_restores (formData : FormData) (w : world) (b : bool) :
  FEATURE_FLAGS (db w) !! ToPropertyKey (FormData_get formData "flagName") = Some b ->
  exists w1 w2,
    toggleFeatureFlag formData w = Normal (tt, w1) /\
    toggleFeatureFlag formData w1 = Normal (tt, w2) /\
    flag w1 (ToPropertyKey (FormData_get formData "flagName")) = VBoolean (negb b) /\
    db w2 = db w.
Proof.
  intros Hown. rewrite toggleFeatureFlag_run. cbv zeta.
  eexists. eexists. split; [reflexivity |].
  rewrite toggleFeatureFlag_run. cbv zeta. split; [reflexivity |].
  unfold flag. cbn [db FEATURE_FLAGS USER_PREFERENCES].
  set (key := ToPropertyKey (FormData_get formData "flagName")) in *.
  assert (H1 : Put (FEATURE_FLAGS (db w)) key (Js.not (Get (FEATURE_FLAGS (db w)) key))
               = <[key := negb b]> (FEATURE_FLAGS (db w))).
  { unfold Put, Get, Js.not. rewrite Hown. reflexivity. }
  rewrite H1.
  assert (Hget : Get (<[key := negb b]> (FEATURE_FLAGS (db w))) key = VBoolean (negb b)).
  { unfold Get. rewrite lookup_insert_eq. reflexivity. }
  rewrite Hget. split; [reflexivity |].
  unfold Put. rewrite lookup_insert_eq. unfold Js.not. cbn [ToBoolean].
  rewrite negb_involutive, insert_insert_eq, (insert_id _ _ _ Hown).
  destruct (db w); reflexivity.
Qed.

Lemma toggleFeatureFlag_twice_restores_witness :
  exists w1 w2,
    toggleFeatureFlag (flag_form "currencyToggleEnabled") world_initial = Normal (tt, w1) /\
    toggleFeatureFlag (flag_form "currencyToggleEnabled") w1 = Normal (tt, w2) /\
    db w2 = db world_initial.
Proof.
  destruct (toggleFeatureFlag_twice_restores
              (flag_form "currencyToggleEnabled") world_initial true)
    as [w1 [w2 [H1 [H2 [_ H3]]]]].
  - reflexivity.
  - exists w1, w2. repeat split; assumption.
Defined.

(** X12. A flag form without a 'flagName' entry does not fail: the missing
    name reads as [null], and a flag called "null" is switched on (created if
    the set had none), every other flag staying as it was. *)
Theorem toggleFeatureFlag_missing_flagName (formData : FormData) (w : world) :
  FormData_get formData "flagName" = VNull ->
  FEATURE_FLAGS (db w) !! "null" = None ->
  exists w',
    toggleFeatureFlag formData w = Normal (tt, w') /\
    FEATURE_FLAGS (db w') = <["null" := true]> (FEATURE_FLAGS (db w)) /\
    flag w' "null" = VBoolean true.
Proof.
  intros Hget Hnone. rewrite toggleFeatureFlag_run. cbv zeta. rewrite Hget.
  cbn [ToPropertyKey]. eexists. split; [reflexivity |].
  unfold flag. cbn [db FEATURE_FLAGS].
  assert (H : Put (FEATURE_FLAGS (db w)) "null" (Js.not (Get (FEATURE_FLAGS (db w)) "null"))
              = <["null" := true]> (FEATURE_FLAGS (db w))).
  { unfold Put, Get, Js.not. rewrite Hnone. reflexivity. }
  rewrite H. split; [reflexivity |].
  unfold Get. rewrite lookup_insert_eq. reflexivity.
Qed.

Lemma toggleFeatureFlag_missing_flagName_witness :
  exists w',
    toggleFeatureFlag [] world_initial = Normal (tt, w') /\
    flag w' "null" = VBoolean true.
Proof.
  destruct (toggleFeatureFlag_missing_flagName [] world_initial)
    as [w' [H1 [_ H2]]].
  - reflexivity.
  - reflexivity.
  - exists w'. split; assumption.
Defined.

(** X13. Of two currency submissions served one after the other the later
    one decides: [db] ends as if only the second had been served. *)
Theorem updateUserCurrency_last_write_wins (first second : FormData) (w : world) :
  exists w1 w2 w2',
    updateUserCurrency first w = Normal (tt, w1) /\
    updateUserCurrency second w1 = Normal (tt, w2) /\
    updateUserCurrency second w = Normal (tt, w2') /\
    db w2 = db w2'.
Proof.
  rewrite !updateUserCurrency_run. do 3 eexists.
  split; [reflexivity |]. rewrite updateUserCurrency_run.
  split; [reflexivity |]. split; reflexivity.
Qed.

(** What a flag toggle keeps of the flag set, whatever flag it names. *)
Lemma Put_keeps_own (own : gmap string bool) (key k : string) (b : bool) :
  is_Some (own !! k) -> is_Some (Put own key b !! k).
Proof.
  intros Hk. unfold Put. destruct (own !! key) eqn:E.
  - destruct (decide (key = k)) as [-> | Hne].
    + rewrite lookup_insert_eq. eauto.
    + rewrite lookup_insert_ne by exact Hne. exact Hk.
  - destruct (is_proto_accessor key); [exact Hk |].
    destruct (decide (key = k)) as [-> | Hne].
    + rewrite lookup_insert_eq. eauto.
    + rewrite lookup_insert_ne by exact Hne. exact Hk.
Qed.

Lemma serve_run (r : request) (w : world) :
  exists d answer,
    serve r w = Normal (answer,
                        {| db := d;
                           elapsed := elapsed w + latency r;
                           revalidated :=
                             (if is_mutation r then ["/server-actions-demo"] else [])
                             ++ revalidated w |}) /\
    theme (USER_PREFERENCES d) = theme (USER_PREFERENCES (db w)) /\
    (forall k, is_Some (FEATURE_FLAGS (db w) !! k) -> is_Some (FEATURE_FLAGS d !! k)).
Proof.
  destruct r as [formData | formData |]; cbn [serve latency is_mutation].
  - unfold mbind, action_mbind. rewrite updateUserCurrency_run.
    do 2 eexists. split; [reflexivity |]. split; [reflexivity | auto].
  - unfold mbind, action_mbind. rewrite toggleFeatureFlag_run. cbv zeta.
    do 2 eexists. split; [reflexivity |].
    split; [reflexivity |]. cbn [FEATURE_FLAGS]. intros k Hk.
    apply Put_keeps_own. exact Hk.
  - exists (db w). eexists. split; [| split; [reflexivity | auto]].
    destruct w; reflexivity.
Qed.

Lemma serve_all_cons (r : request) (rest : list request) (w : world) :
  serve_all (r :: rest) w
  = match serve r w with
    | Normal (_, w') => serve_all rest w'
    | Throw e => Throw e
    end.
Proof.
  cbn [serve_all]. unfold mbind, action_mbind.
  destruct (serve r w) as [[answer w'] | e]; reflexivity.
Qed.

(** Any sequence of requests is served to the end; the theme is never
    changed and a flag that exists is never removed. *)
Lemma serve_all_keeps (rs : list request) (w : world) :
  exists w',
    serve_all rs w = Normal (tt, w') /\
    theme (USER_PREFERENCES (db w')) = theme (USER_PREFERENCES (db w)) /\
    (forall k, is_Some (FEATURE_FLAGS (db w) !! k) ->
               is_Some (FEATURE_FLAGS (db w') !! k)).
Proof.
  revert w. induction rs as [| r rest IH]; intros w.
  - exists w. split; [reflexivity | split; [reflexivity | auto]].
  - rewrite serve_all_cons.
    destruct (serve_run r w) as [d [answer [-> [Ht Hk]]]].
    match goal with |- context [serve_all rest ?w1] =>
      destruct (IH w1) as [w' [Hrun [Ht' Hk']]] end.
    exists w'. split; [exact Hrun |].
    cbn [db] in Ht', Hk'. split; [congruence |].
    intros k H. apply Hk', Hk, H.
Qed.

(** What decides whether the page renders: the stored currency. *)
Lemma render_outcome (view : page_view) :
  status_currency view = p_currency (props view) ->
  match p_currency (props view) with
  | VFile _ | VObjectPrototype =>
      render view = Throw (Error "Objects are not valid as a React child")
  | _ =>
      render view
      = Normal {| page := view;
                  manager := ClientComponents.PreferencesManager (props view) |}
  end.
Proof.
  intros Hsame. unfold render, ClientComponents.PreferencesManager_rendered.
  rewrite Hsame.
  destruct (p_currency (props view)) as [| | b | t | f | f |]; reflexivity.
Qed.

(** X14. Starting from the initial store, whatever requests are served and
    whatever they submit, every request is served to the end, and what
    [ServerActionsDemoPage] then passes on has the theme "light" and a boolean
    for [currencyToggleEnabled], never [undefined]: no request writes the
    theme or removes a flag.  Rendering that page succeeds, showing the theme
    "light", unless the stored currency is a file (an object), in which case
    the render throws. *)
Theorem serve_all_from_initial (rs : list request) :
  exists w' view w'' b,
    serve_all rs world_initial = Normal (tt, w') /\
    ServerActionsDemoPage w' = Normal (view, w'') /\
    p_theme (props view) = "light" /\
    status_theme view = "light" /\
    p_currencyToggleEnabled (props view) = VBoolean b /\
    match currency (USER_PREFERENCES (db w')) with
    | VFile _ | VObjectPrototype =>
        render view = Throw (Error "Objects are not valid as a React child")
    | _ =>
        exists p, render view = Normal p /\
                  ClientComponents.current_theme (manager p) = "light"
    end.
Proof.
  destruct (serve_all_keeps rs world_initial) as [w' [Hrun [Ht Hk]]].
  destruct (Hk "currencyToggleEnabled") as [b Hb].
  { cbn. rewrite lookup_singleton_eq. eauto. }
  exists w'. do 2 eexists. exists b.
  split; [exact Hrun |]. split; [reflexivity |].
  cbn [props p_theme status_theme p_currencyToggleEnabled db].
  split; [exact Ht |]. split; [exact Ht |].
  split; [unfold Get; rewrite Hb; reflexivity |].
  match goal with |- context [render ?v] =>
    pose proof (render_outcome v eq_refl) as Hr end.
  cbn [props p_currency] in Hr.
  destruct (currency (USER_PREFERENCES (db w'))) as [| | c | t | f | f |];
    try exact Hr;
    (eexists; split; [exact Hr |]; cbn [manager]; exact Ht).
Qed.

Lemma repeat_app_cons {A} (x : A) (n : nat) (l : list A) :
  (repeat x n ++ ([x] ++ l) = repeat x (S n) ++ l)%list.
Proof.
  induction n as [| n IH]; cbn [repeat app].
  - reflexivity.
  - f_equal. exact IH.
Qed.

(** X15. Serving a sequence of requests takes the sum of their latencies
    (500 ms per currency submission, 300 ms per flag submission, 100 ms per
    render) and revalidates the route "/server-actions-demo" once per
    submission and never for a render. *)
Theorem serve_all_accounting (rs : list request) (w : world) :
  exists w',
    serve_all rs w = Normal (tt, w') /\
    elapsed w' = elapsed w + fold_right Z.add 0 (map latency rs) /\
    revalidated w'
    = (repeat "/server-actions-demo" (List.length (List.filter is_mutation rs))
       ++ revalidated w)%list.
Proof.
  revert w. induction rs as [| r rest IH]; intros w.
  - exists w. split; [reflexivity |]. cbn. split; [lia | reflexivity].
  - rewrite serve_all_cons.
    destruct (serve_run r w) as [d [answer [-> _]]].
    match goal with |- context [serve_all rest ?w1] =>
      destruct (IH w1) as [w' [Hrun [He Hr]]] end.
    exists w'. split; [exact Hrun |].
    cbn [elapsed revalidated] in He, Hr.
    split.
    + rewrite He. cbn [map fold_right]. lia.
    + rewrite Hr. cbn [List.filter].
      destruct (is_mutation r); cbn [List.length repeat].
      * apply repeat_app_cons.
      * reflexivity.
Qed.

End Requests.

(** ** The forms of [PreferencesManager] against the server actions *)

Section Forms.
Import ServerActions ClientComponents Serving.

Lemma ServerActionsDemoPage_run (w : world) :
  ServerActionsDemoPage w
  = Normal ({| props :=
                 {| p_currency := currency (USER_PREFERENCES (db w));
                    p_theme := theme (USER_PREFERENCES (db w));
                    p_currencyToggleEnabled :=
                      Get (FEATURE_FLAGS (db w)) "currencyToggleEnabled" |};
               status_currency := currency (USER_PREFERENCES (db w));
               status_theme := theme (USER_PREFERENCES (db w));
               status_flag :=
                 if ToBoolean (Get (FEATURE_FLAGS (db w)) "currencyToggleEnabled")
                 then "ENABLED" else "DISABLED" |},
            {| db := db w; elapsed := elapsed w + 100;
               revalidated := revalidated w |}).
Proof. reflexivity. Qed.

Lemma db_eta (d : db_t) :
  {| USER_PREFERENCES := {| currency := currency (USER_PREFERENCES d);
                            theme := theme (USER_PREFERENCES d) |};
     FEATURE_FLAGS := FEATURE_FLAGS d |} = d.
Proof. destruct d as [[c t] f]. reflexivity. Qed.

(** X16. When the feature is enabled and the stored currency is one of the
    five codes of the form, the page marks exactly that radio button checked,
    and submitting the form as rendered writes the same currency back: [db]
    is unchanged. *)
Theorem currency_form_resubmit_unchanged (w : world) (c : string) :
  currency (USER_PREFERENCES (db w)) = VString c ->
  In c ["USD"; "EUR"; "GBP"; "JPY"; "CAD"] ->
  ToBoolean (flag w "currencyToggleEnabled") = true ->
  exists view w1 radios formData w2,
    ServerActionsDemoPage w = Normal (view, w1) /\
    currency_form (PreferencesManager (props view)) = Some radios /\
    submit_currency_form (PreferencesManager (props view)) (initially_checked radios)
      = Some formData /\
    formData = [("currency", VString c)] /\
    updateUserCurrency formData w1 = Normal (tt, w2) /\
    db w2 = db w.
Proof.
  intros Hcur Hin Hen. unfold flag in Hen.
  rewrite ServerActionsDemoPage_run.
  do 2 eexists. exists (currency_radios (VString c)). exists [("currency", VString c)].
  eexists. split; [reflexivity |].
  unfold submit_currency_form, PreferencesManager.
  cbn [props p_currency p_theme p_currencyToggleEnabled currency_form].
  rewrite Hen, Hcur.
  split; [reflexivity |].
  split.
  { cbn in Hin.
    repeat (destruct Hin as [<- | Hin]; [vm_compute; reflexivity |]).
    contradiction. }
  split; [reflexivity |].
  rewrite updateUserCurrency_run. split; [reflexivity |].
  cbn [db FormData_get String.eqb Ascii.eqb Bool.eqb].
  rewrite <- Hcur. apply db_eta.
Qed.

Lemma currency_form_resubmit_unchanged_witness :
  exists view w1 radios formData w2,
    ServerActionsDemoPage world_initial = Normal (view, w1) /\
    currency_form (PreferencesManager (props view)) = Some radios /\
    submit_currency_form (PreferencesManager (props view)) (initially_checked radios)
      = Some formData /\
    updateUserCurrency formData w1 = Normal (tt, w2) /\
    db w2 = db world_initial.
Proof.
  destruct (currency_form_resubmit_unchanged world_initial "USD")
    as [view [w1 [radios [formData [w2 [H1 [H2 [H3 [_ [H4 H5]]]]]]]]]].
  - reflexivity.
  - cbn. left. reflexivity.
  - reflexivity.
  - exists view, w1, radios, formData, w2. repeat split; assumption.
Defined.

Lemma strict_eq_value_string_false (v : value) (code : string) :
  v <> VString code -> strict_eq_value_string v code = false.
Proof.
  intros Hne. destruct v as [| | b | t | f | f |]; try reflexivity.
  cbn. apply String.eqb_neq. congruence.
Qed.

(** How the page renders when the stored currency is text or [null]. *)
Lemma render_text_or_null (w : world) :
  (currency (USER_PREFERENCES (db w)) = VNull \/
   exists s, currency (USER_PREFERENCES (db w)) = VString s) ->
  exists view w1,
    ServerActionsDemoPage w = Normal (view, w1) /\
    db w1 = db w /\
    render view = Normal {| page := view; manager := PreferencesManager (props view) |}.
Proof.
  intros Hcur. rewrite ServerActionsDemoPage_run. do 2 eexists.
  split; [reflexivity |]. split; [reflexivity |].
  unfold render, PreferencesManager_rendered.
  cbn [status_currency status_theme props p_currency p_theme].
  destruct Hcur as [E | [s E]]; rewrite E; reflexivity.
Qed.

(** X17. When the feature is enabled and the stored currency is [null] or a
    text that is none of the five codes (written by a direct call), the page
    renders with no radio button checked, the form submitted as rendered has
    no 'currency' entry, and the action stores [null], which the next render
    reads back and shows. *)
Theorem currency_form_resubmit_unknown (w : world) :
  (currency (USER_PREFERENCES (db w)) = VNull \/
   exists s, currency (USER_PREFERENCES (db w)) = VString s /\
             ~ In s ["USD"; "EUR"; "GBP"; "JPY"; "CAD"]) ->
  ToBoolean (flag w "currencyToggleEnabled") = true ->
  exists view w1 p radios w2 view' w3 p',
    ServerActionsDemoPage w = Normal (view, w1) /\
    render view = Normal p /\
    ClientComponents.currency_form (manager p) = Some radios /\
    initially_checked radios = None /\
    submit_currency_form (manager p) (initially_checked radios) = Some [] /\
    updateUserCurrency [] w1 = Normal (tt, w2) /\
    ServerActionsDemoPage w2 = Normal (view', w3) /\
    p_currency (props view') = VNull /\
    render view' = Normal p' /\
    current_currency (manager p') = VNull.
Proof.
  intros Hcur Hen. unfold flag in Hen.
  assert (Hnot : ~ In (currency (USER_PREFERENCES (db w)))
                      [VString "USD"; VString "EUR"; VString "GBP";
                       VString "JPY"; VString "CAD"]).
  { destruct Hcur as [E | [s [E Hs]]]; rewrite E.
    - cbn. intuition discriminate.
    - intros Hin. apply Hs. cbn in Hin. cbn.
      repeat (destruct Hin as [Hin | Hin];
              [injection Hin as Hin; auto 10 |]).
      contradiction. }
  destruct (render_text_or_null w) as [view [w1 [Hpage [Hdb Hrender]]]].
  { destruct Hcur as [E | [s [E _]]]; [left; exact E | right; eauto]. }
  pose proof Hpage as Hview. rewrite ServerActionsDemoPage_run in Hview.
  injection Hview as Hview _.
  assert (Hnone : initially_checked (currency_radios (currency (USER_PREFERENCES (db w))))
                  = None).
  { unfold currency_radios, initially_checked.
    rewrite !strict_eq_value_string_false; [reflexivity | ..];
      intros E; apply Hnot; rewrite E; cbn; auto 10. }
  assert (Hform : ClientComponents.currency_form (PreferencesManager (props view))
                  = Some (currency_radios (currency (USER_PREFERENCES (db w))))).
  { rewrite <- Hview. unfold PreferencesManager.
    cbn [props p_currency p_currencyToggleEnabled ClientComponents.currency_form].
    rewrite Hen. reflexivity. }
  destruct (render_text_or_null
              {| db := {| USER_PREFERENCES :=
                            {| currency := VNull;
                               theme := theme (USER_PREFERENCES (db w1)) |};
                          FEATURE_FLAGS := FEATURE_FLAGS (db w1) |};
                 elapsed := elapsed w1 + 500;
                 revalidated := "/server-actions-demo" :: revalidated w1 |})
    as [view' [w3 [Hpage' [_ Hrender']]]].
  { left. reflexivity. }
  pose proof Hpage' as Hview'. rewrite ServerActionsDemoPage_run in Hview'.
  injection Hview' as Hview' _.
  exists view, w1. eexists. exists (currency_radios (currency (USER_PREFERENCES (db w)))).
  eexists. exists view', w3. eexists.
  split; [exact Hpage |]. split; [exact Hrender |]. cbn [manager].
  split; [exact Hform |]. split; [exact Hnone |].
  split.
  { unfold submit_currency_form. rewrite Hform, Hnone. reflexivity. }
  split; [apply updateUserCurrency_run |].
  split; [exact Hpage' |].
  split; [rewrite <- Hview'; reflexivity |].
  split; [exact Hrender' |].
  cbn [manager]. rewrite <- Hview'. reflexivity.
Qed.

Lemma currency_form_resubmit_unknown_witness :
  exists view w1 p radios w2 view' w3 p',
    ServerActionsDemoPage
      {| db := {| USER_PREFERENCES := {| currency := VString "XXX"; theme := "light" |};
                  FEATURE_FLAGS := {[ "currencyToggleEnabled" := true ]} |};
         elapsed := 0; revalidated := [] |} = Normal (view, w1) /\
    render view = Normal p /\
    ClientComponents.currency_form (manager p) = Some radios /\
    initially_checked radios = None /\
    submit_currency_form (manager p) (initially_checked radios) = Some [] /\
    updateUserCurrency [] w1 = Normal (tt, w2) /\
    ServerActionsDemoPage w2 = Normal (view', w3) /\
    p_currency (props view') = VNull /\
    render view' = Normal p' /\
    current_currency (manager p') = VNull.
Proof.
  apply (currency_form_resubmit_unknown
           {| db := {| USER_PREFERENCES := {| currency := VString "XXX"; theme := "light" |};
                       FEATURE_FLAGS := {[ "currencyToggleEnabled" := true ]} |};
              elapsed := 0; revalidated := [] |}).
  - right. exists "XXX". split; [reflexivity |]. cbn. intuition discriminate.
  - reflexivity.
Defined.

(** X18. When the feature is enabled, choosing the [i]-th radio button
    and submitting stores the [i]-th code, whatever was stored before; the page
    rendered next shows that code and marks the same button checked. *)
Theorem currency_form_choice_round_trip (w : world) (i : nat) (code : string) :
  ["USD"; "EUR"; "GBP"; "JPY"; "CAD"] !! i = Some code ->
  ToBoolean (flag w "currencyToggleEnabled") = true ->
  exists view w1 formData w2 view' w3 radios',
    ServerActionsDemoPage w = Normal (view, w1) /\
    submit_currency_form (PreferencesManager (props view)) (Some i) = Some formData /\
    updateUserCurrency formData w1 = Normal (tt, w2) /\
    ServerActionsDemoPage w2 = Normal (view', w3) /\
    current_currency (PreferencesManager (props view')) = VString code /\
    ClientComponents.currency_form (PreferencesManager (props view')) = Some radios' /\
    initially_checked radios' = Some i.
Proof.
  intros Hi Hen. unfold flag in Hen.
  rewrite ServerActionsDemoPage_run.
  do 2 eexists. exists [("currency", VString code)].
  do 3 eexists. exists (currency_radios (VString code)).
  split; [reflexivity |].
  unfold submit_currency_form, PreferencesManager.
  cbn [props p_currency p_theme p_currencyToggleEnabled
       ClientComponents.currency_form current_currency].
  rewrite Hen.
  assert (Hsub : submit_radio_group "currency"
                   (currency_radios (currency (USER_PREFERENCES (db w)))) (Some i)
                 = [("currency", VString code)] /\
                 initially_checked (currency_radios (VString code)) = Some i).
  { do 5 (destruct i as [| i]; [injection Hi as <-; split; reflexivity |]).
    discriminate Hi. }
  destruct Hsub as [-> Hchecked].
  split; [reflexivity |].
  rewrite updateUserCurrency_run. split; [reflexivity |].
  rewrite ServerActionsDemoPage_run. split; [reflexivity |].
  cbn [props p_currency p_currencyToggleEnabled db USER_PREFERENCES FEATURE_FLAGS
       currency FormData_get String.eqb Ascii.eqb Bool.eqb].
  rewrite Hen. split; [reflexivity |]. split; [reflexivity | exact Hchecked].
Qed.

Lemma currency_form_choice_round_trip_witness :
  exists view w1 formData w2 view' w3 radios',
    ServerActionsDemoPage world_initial = Normal (view, w1) /\
    submit_currency_form (PreferencesManager (props view)) (Some 3%nat) = Some formData /\
    updateUserCurrency formData w1 = Normal (tt, w2) /\
    ServerActionsDemoPage w2 = Normal (view', w3) /\
    current_currency (PreferencesManager (props view')) = VString "JPY" /\
    ClientComponents.currency_form (PreferencesManager (props view')) = Some radios' /\
    initially_checked radios' = Some 3%nat.
Proof.
  apply (currency_form_choice_round_trip world_initial 3 "JPY"); reflexivity.
Defined.

(** X19. Whenever the page renders, submitting its feature-flag form flips
    whether the next render shows the currency form: shown becomes hidden and
    hidden becomes shown; that next render succeeds too, with the displayed
    currency and theme unchanged. *)
Theorem flag_form_flips_currency_form
    (w w1 : world) (view : page_view) (p : rendered_page) :
  ServerActionsDemoPage w = Normal (view, w1) ->
  render view = Normal p ->
  exists w2 view' w3 p',
    toggleFeatureFlag (submit_flag_form (manager p)) w1 = Normal (tt, w2) /\
    ServerActionsDemoPage w2 = Normal (view', w3) /\
    render view' = Normal p' /\
    shows_currency_form (manager p') = negb (shows_currency_form (manager p)) /\
    current_currency (manager p') = current_currency (manager p) /\
    current_theme (manager p') = current_theme (manager p).
Proof.
  intros Hpage Hrender.
  rewrite ServerActionsDemoPage_run in Hpage. injection Hpage as <- <-.
  unfold render, PreferencesManager_rendered in Hrender.
  cbn [status_currency status_theme props p_currency p_theme] in Hrender.
  destruct (currency (USER_PREFERENCES (db w))) as [| | c | t | f | f |] eqn:Ec;
    cbn [render_child mbind completion_mbind completion_bind mret completion_ret]
      in Hrender;
    try discriminate Hrender;
    injection Hrender as <-;
    (do 4 eexists;
     rewrite toggleFeatureFlag_run; cbv zeta; split; [reflexivity |];
     rewrite ServerActionsDemoPage_run; split; [reflexivity |];
     cbn [db USER_PREFERENCES]; rewrite Ec;
     unfold render, PreferencesManager_rendered;
     cbn [status_currency status_theme props p_currency p_theme render_child
          mbind completion_mbind completion_bind mret completion_ret];
     split; [reflexivity |];
     unfold shows_currency_form, PreferencesManager, submit_flag_form;
     cbn [manager props p_currency p_theme p_currencyToggleEnabled
          ClientComponents.currency_form current_currency current_theme
          flag_form_flagName db USER_PREFERENCES FEATURE_FLAGS
          FormData_get String.eqb Ascii.eqb Bool.eqb ToPropertyKey];
     rewrite (Get_Put_not_inherited _ "currencyToggleEnabled" _ eq_refl);
     unfold Js.not; cbn [ToBoolean];
     destruct (ToBoolean (Get (FEATURE_FLAGS (db w)) "currencyToggleEnabled"));
     repeat split; reflexivity).
Qed.

Lemma flag_form_flips_currency_form_witness :
  exists view w1 p w2 view' w3 p',
    ServerActionsDemoPage world_initial = Normal (view, w1) /\
    render view = Normal p /\
    toggleFeatureFlag (submit_flag_form (manager p)) w1 = Normal (tt, w2) /\
    ServerActionsDemoPage w2 = Normal (view', w3) /\
    render view' = Normal p' /\
    shows_currency_form (manager p) = true /\
    shows_currency_form (manager p') = false.
Proof.
  destruct (ServerActionsDemoPage world_initial) as [[view w1] | e] eqn:Hpage;
    [| discriminate Hpage].
  destruct (render view) as [p | e] eqn:Hrender;
    [| vm_compute in Hpage; injection Hpage as <- _; vm_compute in Hrender;
       discriminate Hrender].
  destruct (flag_form_flips_currency_form world_initial w1 view p Hpage Hrender)
    as [w2 [view' [w3 [p' [H1 [H2 [H3 [H4 _]]]]]]]].
  assert (Hshown : shows_currency_form (manager p) = true).
  { vm_compute in Hpage. injection Hpage as <- _. vm_compute in Hrender.
    injection Hrender as <-. reflexivity. }
  exists view, w1, p, w2, view', w3, p'.
  repeat split; try assumption. rewrite H4, Hshown. reflexivity.
Defined.

End Forms.
